(** * The OCR gateway handler of [backend/ocr/index.py]

    A shallow embedding of [handler(event, context)]: Python values of the
    shapes [json] produces, the dynamic operations the handler applies to
    them ([dict.get], truth testing, subscripting, [str.strip]),
    [json.dumps] with its default settings, and the handler itself in a
    monad that threads raised exceptions and the log of outbound HTTP
    requests. *)

From Stdlib Require Import ZArith NArith List String Ascii Bool Lia.
From Stdlib Require Import Floats.PrimFloat.
From Stdlib Require DecimalString.
Import ListNotations.

Set Warnings "-register-all".
Local Open Scope N_scope.

(** ** Python strings

    A [str] is a sequence of Unicode code points. *)

Definition str := list N.

Definition lit (s : string) : str := map N_of_ascii (list_ascii_of_string s).

(** The double quote and the backslash, which [json.dumps] emits. *)
Definition dquote : str := [34].
Definition backslash : str := [92].

Fixpoint str_eqb (s t : str) : bool :=
  match s, t with
  | [], [] => true
  | c :: s', d :: t' => (c =? d) && str_eqb s' t'
  | _, _ => false
  end.

(** [sep.join(parts)] *)
Fixpoint join (sep : str) (parts : list str) : str :=
  match parts with
  | [] => []
  | [p] => p
  | p :: rest => p ++ sep ++ join sep rest
  end.

(** [str.isspace] for one character: the ASCII table of CPython
    ([_Py_ascii_whitespace]) and [_PyUnicode_IsWhitespace] above it. *)
Definition isspace (c : N) : bool :=
  ((9 <=? c) && (c <=? 13)) || ((28 <=? c) && (c <=? 32))
  || (c =? 133) || (c =? 160) || (c =? 5760)
  || ((8192 <=? c) && (c <=? 8202))
  || (c =? 8232) || (c =? 8233) || (c =? 8239) || (c =? 8287) || (c =? 12288).

Fixpoint lstrip (s : str) : str :=
  match s with
  | [] => []
  | c :: s' => if isspace c then lstrip s' else s
  end.

Definition rstrip (s : str) : str := rev (lstrip (rev s)).

(** [s.strip()] with no argument. *)
Definition strip (s : str) : str := rstrip (lstrip s).

(** ** Python values *)

Inductive pyval : Type :=
| PyNone
| PyBool (b : bool)
| PyInt (z : Z)
| PyFloat (f : float)
| PyStr (s : str)
| PyList (l : list pyval)
| PyDict (d : list (str * pyval)).

(** A [dict] with [str] keys, in insertion order. *)
Definition dict := list (str * pyval).

Fixpoint dict_lookup (d : dict) (k : str) : option pyval :=
  match d with
  | [] => None
  | (k', v) :: d' => if str_eqb k' k then Some v else dict_lookup d' k
  end.

(** [d.get(k, default)] *)
Definition dict_get (d : dict) (k : str) (default : pyval) : pyval :=
  match dict_lookup d k with
  | Some v => v
  | None => default
  end.

(** [k in d] *)
Definition dict_contains (d : dict) (k : str) : bool :=
  match dict_lookup d k with
  | Some _ => true
  | None => false
  end.

(** [bool(v)], the test of [if v] and [not v]. *)
Definition truthy (v : pyval) : bool :=
  match v with
  | PyNone => false
  | PyBool b => b
  | PyInt z => negb (z =? 0)%Z
  | PyFloat f => negb (PrimFloat.eqb f 0%float)
  | PyStr s => match s with [] => false | _ => true end
  | PyList l => match l with [] => false | _ => true end
  | PyDict d => match d with [] => false | _ => true end
  end.

(** [v == s] for a [str] s: only an equal [str] compares equal. *)
Definition eq_str (v : pyval) (s : str) : bool :=
  match v with
  | PyStr t => str_eqb t s
  | _ => false
  end.

(** ** Exceptions and outcomes *)

Inductive exn : Type :=
| TypeError
| AttributeError
| KeyError
| IndexError
| JSONDecodeError
| RequestException.

Inductive outcome (A : Type) : Type :=
| Returns (a : A)
| Raises (e : exn).

Arguments Returns {A} a.
Arguments Raises {A} e.

(** [v.get(k, default)]: only a [dict] has the attribute. *)
Definition attr_get (v : pyval) (k : str) (default : pyval) : outcome pyval :=
  match v with
  | PyDict d => Returns (dict_get d k default)
  | _ => Raises AttributeError
  end.

(** [v[0]] *)
Definition subscript0 (v : pyval) : outcome pyval :=
  match v with
  | PyList l => match l with x :: _ => Returns x | [] => Raises IndexError end
  | PyStr s => match s with c :: _ => Returns (PyStr [c]) | [] => Raises IndexError end
  | PyDict _ => Raises KeyError
  | _ => Raises TypeError
  end.

(** [v.strip()]: only a [str] has the attribute. *)
Definition attr_strip (v : pyval) : outcome pyval :=
  match v with
  | PyStr s => Returns (PyStr (strip s))
  | _ => Raises AttributeError
  end.

(** ** [json.dumps] with its default settings

    [ensure_ascii=True], separators [", "] and [": "], [allow_nan=True].
    The text of a finite float is [float.__repr__], which the embedding
    takes from the interpreter. *)

Definition hex_digit (n : N) : N := if n <? 10 then 48 + n else 87 + n.

(** ['\\u{0:04x}'.format(n)] *)
Definition u_escape (n : N) : str :=
  backslash ++ [117; hex_digit (N.shiftr n 12 mod 16); hex_digit (N.shiftr n 8 mod 16);
                hex_digit (N.shiftr n 4 mod 16); hex_digit (n mod 16)].

(** The replacement of one character by [py_encode_basestring_ascii]:
    the short escapes of [ESCAPE_DCT], the printable ASCII range kept, and
    a [\uXXXX] escape (a surrogate pair above the basic plane) for the rest. *)
Definition escape_char (c : N) : str :=
  if c =? 92 then backslash ++ backslash
  else if c =? 34 then backslash ++ dquote
  else if c =? 8 then backslash ++ [98]
  else if c =? 12 then backslash ++ [102]
  else if c =? 10 then backslash ++ [110]
  else if c =? 13 then backslash ++ [114]
  else if c =? 9 then backslash ++ [116]
  else if (32 <=? c) && (c <=? 126) then [c]
  else if c <? 65536 then u_escape c
  else
    let n := c - 65536 in
    u_escape (N.lor 55296 (N.land (N.shiftr n 10) 1023))
    ++ u_escape (N.lor 56320 (N.land n 1023)).

Definition encode_basestring_ascii (s : str) : str :=
  dquote ++ flat_map escape_char s ++ dquote.

(** [int.__repr__] *)
Definition int_repr (z : Z) : str :=
  lit (DecimalString.NilZero.string_of_int (Z.to_int z)).

Section Dumps.

Variable float_repr : float -> str.

(** [floatstr] of [json.encoder]. *)
Definition floatstr (f : float) : str :=
  if PrimFloat.is_nan f then lit "NaN"
  else if PrimFloat.eqb f PrimFloat.infinity then lit "Infinity"
  else if PrimFloat.eqb f PrimFloat.neg_infinity then lit "-Infinity"
  else float_repr f.

Fixpoint json_dumps (v : pyval) : str :=
  match v with
  | PyNone => lit "null"
  | PyBool true => lit "true"
  | PyBool false => lit "false"
  | PyInt z => int_repr z
  | PyFloat f => floatstr f
  | PyStr s => encode_basestring_ascii s
  | PyList l => lit "[" ++ join (lit ", ") (map json_dumps l) ++ lit "]"
  | PyDict d =>
      lit "{"
      ++ join (lit ", ")
           (map (fun kv => encode_basestring_ascii (fst kv) ++ lit ": " ++ json_dumps (snd kv)) d)
      ++ lit "}"
  end.

End Dumps.

(** ** The world outside the handler

    [requests.post(url, data=..., headers=...)] either raises or returns a
    response, whose [json()] either raises or returns the decoded value.
    [os.environ] maps names to strings. *)

Record Request : Type := mkRequest {
  url : str;
  data : dict;
  headers : dict
}.

Record Response : Type := mkResponse {
  json : outcome pyval
}.

Record World : Type := mkWorld {
  environ : list (str * str);
  requests_post : Request -> outcome Response
}.

(** [context]: the invocation object, with the attributes the docstring
    of [handler] lists. *)
Record Context : Type := mkContext {
  request_id : str;
  function_name : str
}.

(** ** The monad of the handler

    A computation reads the world, appends the outbound requests it makes
    to a log, and returns or raises. *)

Definition IO (A : Type) : Type := World -> list Request -> outcome A * list Request.

Definition ret {A : Type} (a : A) : IO A := fun _ log => (Returns a, log).

Definition raise {A : Type} (e : exn) : IO A := fun _ log => (Raises e, log).

Definition bind {A B : Type} (m : IO A) (k : A -> IO B) : IO B :=
  fun w log =>
    match m w log with
    | (Returns a, log') => k a w log'
    | (Raises e, log') => (Raises e, log')
    end.

Definition lift {A : Type} (o : outcome A) : IO A := fun _ log => (o, log).

Notation "x <- m ;; k" := (bind m (fun x => k))
  (at level 61, m at next level, right associativity).

(** [os.environ.get(name)]: [None] when the variable is not set. *)
Fixpoint env_lookup (env : list (str * str)) (name : str) : pyval :=
  match env with
  | [] => PyNone
  | (n, v) :: env' => if str_eqb n name then PyStr v else env_lookup env' name
  end.

Definition os_environ_get (name : str) : IO pyval :=
  fun w log => (Returns (env_lookup (environ w) name), log).

(** [requests.post(...)]: the one outbound call, logged when it is made. *)
Definition post (u : str) (d : dict) (h : dict) : IO Response :=
  fun w log =>
    let rq := mkRequest u d h in
    (requests_post w rq, log ++ [rq]).

(** ** The handler *)

Section Handler.

(** [json.loads] on a [str], and [float.__repr__], of the interpreter. *)
Variable json_loads_str : str -> outcome pyval.
Variable float_repr : float -> str.

(** [json.loads(v)]: a value that is no [str] (nor bytes) is a [TypeError]. *)
Definition json_loads (v : pyval) : outcome pyval :=
  match v with
  | PyStr s => json_loads_str s
  | _ => Raises TypeError
  end.

Definition json_headers : pyval :=
  PyDict [ (lit "Content-Type", PyStr (lit "application/json"));
           (lit "Access-Control-Allow-Origin", PyStr (lit "*")) ].

Definition handler (event : dict) (context : Context) : IO dict :=
  let method := dict_get event (lit "httpMethod") (PyStr (lit "GET")) in
  if eq_str method (lit "OPTIONS") then
    ret [ (lit "statusCode", PyInt 200);
          (lit "headers",
            PyDict [ (lit "Access-Control-Allow-Origin", PyStr (lit "*"));
                     (lit "Access-Control-Allow-Methods", PyStr (lit "POST, OPTIONS"));
                     (lit "Access-Control-Allow-Headers", PyStr (lit "Content-Type"));
                     (lit "Access-Control-Max-Age", PyStr (lit "86400")) ]);
          (lit "body", PyStr (lit "")) ]
  else if negb (eq_str method (lit "POST")) then
    ret [ (lit "statusCode", PyInt 405);
          (lit "headers", json_headers);
          (lit "isBase64Encoded", PyBool false);
          (lit "body",
            PyStr (json_dumps float_repr
                     (PyDict [ (lit "error", PyStr (lit "Method not allowed")) ]))) ]
  else
    body_data <- lift (json_loads (dict_get event (lit "body") (PyStr (lit "{}")))) ;;
    image_base64 <- lift (attr_get body_data (lit "image") (PyStr (lit ""))) ;;
    if negb (truthy image_base64) then
      ret [ (lit "statusCode", PyInt 400);
            (lit "headers", json_headers);
            (lit "isBase64Encoded", PyBool false);
            (lit "body",
              PyStr (json_dumps float_repr
                       (PyDict [ (lit "error", PyStr (lit "Image is required")) ]))) ]
    else
      api_key <- os_environ_get (lit "OCR_SPACE_API_KEY") ;;
      if negb (truthy api_key) then
        ret [ (lit "statusCode", PyInt 500);
              (lit "headers", json_headers);
              (lit "isBase64Encoded", PyBool false);
              (lit "body",
                PyStr (json_dumps float_repr
                         (PyDict [ (lit "error", PyStr (lit "OCR API key not configured")) ]))) ]
      else
        let payload :=
          [ (lit "base64Image", image_base64);
            (lit "language", PyStr (lit "rus"));
            (lit "isOverlayRequired", PyBool false);
            (lit "detectOrientation", PyBool true);
            (lit "scale", PyBool true);
            (lit "OCREngine", PyInt 2) ] in
        response <- post (lit "https://api.ocr.space/parse/image") payload
                         [ (lit "apikey", api_key) ] ;;
        result <- lift (json response) ;;
        errored <- lift (attr_get result (lit "IsErroredOnProcessing") PyNone) ;;
        if truthy errored then
          details <- lift (attr_get result (lit "ErrorMessage") (PyList [])) ;;
          ret [ (lit "statusCode", PyInt 500);
                (lit "headers", json_headers);
                (lit "isBase64Encoded", PyBool false);
                (lit "body",
                  PyStr (json_dumps float_repr
                           (PyDict [ (lit "error", PyStr (lit "OCR processing failed"));
                                     (lit "details", details) ]))) ]
        else
          parsed_results <- lift (attr_get result (lit "ParsedResults") (PyList [])) ;;
          text <- (if truthy parsed_results then
                     first <- lift (subscript0 parsed_results) ;;
                     lift (attr_get first (lit "ParsedText") (PyStr (lit "")))
                   else ret (PyStr (lit ""))) ;;
          stripped <- lift (attr_strip text) ;;
          ret [ (lit "statusCode", PyInt 200);
                (lit "headers", json_headers);
                (lit "isBase64Encoded", PyBool false);
                (lit "body",
                  PyStr (json_dumps float_repr
                           (PyDict [ (lit "text", stripped);
                                     (lit "requestId", PyStr (request_id context)) ]))) ].

End Handler.

(** ** Responses, as the specification words them *)

(** The text [{"error": "<msg>"}]. *)
Definition error_body (msg : string) : str :=
  lit "{" ++ dquote ++ lit "error" ++ dquote ++ lit ": "
  ++ dquote ++ lit msg ++ dquote ++ lit "}".

(** The envelope of a JSON response: a status, the two JSON headers,
    [isBase64Encoded] false and a body. *)
Definition json_response (status : Z) (body : str) : dict :=
  [ (lit "statusCode", PyInt status);
    (lit "headers",
      PyDict [ (lit "Content-Type", PyStr (lit "application/json"));
               (lit "Access-Control-Allow-Origin", PyStr (lit "*")) ]);
    (lit "isBase64Encoded", PyBool false);
    (lit "body", PyStr body) ].

(** The response to a CORS preflight. *)
Definition preflight_response : dict :=
  [ (lit "statusCode", PyInt 200);
    (lit "headers",
      PyDict [ (lit "Access-Control-Allow-Origin", PyStr (lit "*"));
               (lit "Access-Control-Allow-Methods", PyStr (lit "POST, OPTIONS"));
               (lit "Access-Control-Allow-Headers", PyStr (lit "Content-Type"));
               (lit "Access-Control-Max-Age", PyStr (lit "86400")) ]);
    (lit "body", PyStr []) ].

(** The request the handler sends to the provider for an image and a key. *)
Definition provider_request (image : pyval) (key : str) : Request :=
  mkRequest (lit "https://api.ocr.space/parse/image")
    [ (lit "base64Image", image);
      (lit "language", PyStr (lit "rus"));
      (lit "isOverlayRequired", PyBool false);
      (lit "detectOrientation", PyBool true);
      (lit "scale", PyBool true);
      (lit "OCREngine", PyInt 2) ]
    [ (lit "apikey", PyStr key) ].

(** The method the handler dispatches on: the [httpMethod] field, and
    [GET] for a request without one. *)
Definition method_of (event : dict) : pyval :=
  dict_get event (lit "httpMethod") (PyStr (lit "GET")).

(** The method of a request is [m]: the [httpMethod] field holds the string. *)
Definition has_method (event : dict) (m : string) : Prop :=
  dict_lookup event (lit "httpMethod") = Some (PyStr (lit m)).

(** The parsed JSON body of a request is the object [o]: the [body] field
    holds a string that [json.loads] decodes to [o], or the request
    carries no [body] field and [o] is the empty object. *)
Inductive parsed_body (loads : str -> outcome pyval) (event : dict) (o : dict) : Prop :=
| body_given (s : str) :
    dict_lookup event (lit "body") = Some (PyStr s) ->
    loads s = Returns (PyDict o) ->
    parsed_body loads event o
| body_absent :
    dict_lookup event (lit "body") = None ->
    o = [] ->
    parsed_body loads event o.

(** [json.loads] decodes the text of the empty object, the body the
    handler takes for a request that carries none. *)
Definition loads_empty_object (loads : str -> outcome pyval) : Prop :=
  loads (lit "{}") = Returns (PyDict []).

(** The image of a parsed body is missing or empty. *)
Definition image_missing (o : dict) : Prop :=
  dict_lookup o (lit "image") = None
  \/ exists v, dict_lookup o (lit "image") = Some v /\ truthy v = false.

(** The parsed body carries the non-empty image [v]. *)
Definition image_given (o : dict) (v : pyval) : Prop :=
  dict_lookup o (lit "image") = Some v /\ truthy v = true.

(** The API key is configured as [k]. *)
Definition key_configured (w : World) (k : str) : Prop :=
  env_lookup (environ w) (lit "OCR_SPACE_API_KEY") = PyStr k /\ k <> [].

(** The API key is not set, or set to the empty string. *)
Definition key_missing (w : World) : Prop :=
  env_lookup (environ w) (lit "OCR_SPACE_API_KEY") = PyNone
  \/ env_lookup (environ w) (lit "OCR_SPACE_API_KEY") = PyStr [].

(** The provider answers the request for [image] and [k] with the JSON
    object [r]. *)
Definition provider_answers (w : World) (image : pyval) (k : str) (r : dict) : Prop :=
  exists resp,
    requests_post w (provider_request image k) = Returns resp
    /\ json resp = Returns (PyDict r).

(** The provider response signals a processing error. *)
Definition errored (r : dict) : bool :=
  truthy (dict_get r (lit "IsErroredOnProcessing") PyNone).

(** The text of the first parsed result of a provider response: the
    [ParsedText] of the first object of [ParsedResults], and the empty
    string when there are no results (the field is absent or empty) or the
    first result carries no text. *)
Inductive first_parsed_text (r : dict) : str -> Prop :=
| no_parsed_results :
    truthy (dict_get r (lit "ParsedResults") (PyList [])) = false ->
    first_parsed_text r []
| first_parsed_result (p : dict) (rest : list pyval) (t : str) :
    dict_lookup r (lit "ParsedResults") = Some (PyList (PyDict p :: rest)) ->
    dict_lookup p (lit "ParsedText") = Some (PyStr t) ->
    first_parsed_text r t
| first_result_without_text (p : dict) (rest : list pyval) :
    dict_lookup r (lit "ParsedResults") = Some (PyList (PyDict p :: rest)) ->
    dict_lookup p (lit "ParsedText") = None ->
    first_parsed_text r [].

(** ** Sample requests and worlds *)

(** The text [{"image": "<image>"}]. *)
Definition image_body (image : string) : str :=
  lit "{" ++ dquote ++ lit "image" ++ dquote ++ lit ": "
  ++ dquote ++ lit image ++ dquote ++ lit "}".

(** A decoder that agrees with [json.loads] on the bodies of the samples
    below: the empty object, an object with an image, an object with an
    empty image, and a text that is no JSON. *)
Definition sample_loads (s : str) : outcome pyval :=
  if str_eqb s (lit "{}") then Returns (PyDict [])
  else if str_eqb s (image_body "aGVsbG8=") then
    Returns (PyDict [ (lit "image", PyStr (lit "aGVsbG8=")) ])
  else if str_eqb s (image_body "") then
    Returns (PyDict [ (lit "image", PyStr []) ])
  else Raises JSONDecodeError.

(** No sample holds a float. *)
Definition sample_float_repr (f : float) : str := lit "0.0".

Definition sample_context : Context := mkContext (lit "req-1") (lit "ocr").

Definition post_event (body : str) : dict :=
  [ (lit "httpMethod", PyStr (lit "POST")); (lit "body", PyStr body) ].

Definition options_event : dict :=
  [ (lit "httpMethod", PyStr (lit "OPTIONS")); (lit "body", PyStr (lit "not json")) ].

Definition get_event : dict := [ (lit "httpMethod", PyStr (lit "GET")) ].

(** A world with no API key and no network. *)
Definition world_no_key : World := mkWorld [] (fun _ => Raises RequestException).

(** A world whose provider answers every request with [answer]. *)
Definition world_answering (answer : pyval) : World :=
  mkWorld [ (lit "OCR_SPACE_API_KEY", lit "secret") ]
          (fun _ => Returns (mkResponse (Returns answer))).

(** [{"IsErroredOnProcessing": false, "ParsedResults": [{"ParsedText": "  Hello World  \n"}]}] *)
Definition answer_hello : dict :=
  [ (lit "IsErroredOnProcessing", PyBool false);
    (lit "ParsedResults",
      PyList [ PyDict [ (lit "ParsedText", PyStr (lit "  Hello World  " ++ [10])) ] ]) ].

(** [{"IsErroredOnProcessing": false, "ParsedResults": []}] *)
Definition answer_empty : dict :=
  [ (lit "IsErroredOnProcessing", PyBool false); (lit "ParsedResults", PyList []) ].

(** [{"IsErroredOnProcessing": true, "ErrorMessage": ["bad image"]}] *)
Definition answer_bad_image : dict :=
  [ (lit "IsErroredOnProcessing", PyBool true);
    (lit "ErrorMessage", PyList [ PyStr (lit "bad image") ]) ].

(** [{"ParsedResults": [{"ParsedText": null}]}] *)
Definition answer_null_text : dict :=
  [ (lit "ParsedResults", PyList [ PyDict [ (lit "ParsedText", PyNone) ] ]) ].

(** ** What the handler can answer

    The responses the handler returns, each with the log of outbound
    requests it leaves, read off the six [return] statements of
    [handler]. *)
Inductive handler_result (float_repr : float -> str) (event : dict)
          (context : Context) (w : World) (log : list Request)
  : dict -> list Request -> Prop :=
| result_preflight :
    method_of event = PyStr (lit "OPTIONS") ->
    handler_result float_repr event context w log preflight_response log
| result_method_not_allowed :
    method_of event <> PyStr (lit "OPTIONS") ->
    method_of event <> PyStr (lit "POST") ->
    handler_result float_repr event context w log
      (json_response 405 (error_body "Method not allowed")) log
| result_image_required :
    method_of event = PyStr (lit "POST") ->
    handler_result float_repr event context w log
      (json_response 400 (error_body "Image is required")) log
| result_key_not_configured :
    method_of event = PyStr (lit "POST") ->
    truthy (env_lookup (environ w) (lit "OCR_SPACE_API_KEY")) = false ->
    handler_result float_repr event context w log
      (json_response 500 (error_body "OCR API key not configured")) log
| result_processing_failed (v : pyval) (k : str) (details : pyval) :
    method_of event = PyStr (lit "POST") ->
    truthy v = true ->
    key_configured w k ->
    handler_result float_repr event context w log
      (json_response 500
         (json_dumps float_repr
            (PyDict [ (lit "error", PyStr (lit "OCR processing failed"));
                      (lit "details", details) ])))
      (log ++ [provider_request v k])
| result_text (v : pyval) (k : str) (t : str) :
    method_of event = PyStr (lit "POST") ->
    truthy v = true ->
    key_configured w k ->
    handler_result float_repr event context w log
      (json_response 200
         (json_dumps float_repr
            (PyDict [ (lit "text", PyStr (strip t));
                      (lit "requestId", PyStr (request_id context)) ])))
      (log ++ [provider_request v k]).

(** A printable ASCII character. *)
Definition printable (c : N) : bool := (32 <=? c) && (c <=? 126).

(** The provider answers the request for [image] and [k] with the JSON
    value [x], an object or not. *)
Definition provider_answers_value (w : World) (image : pyval) (k : str) (x : pyval) : Prop :=
  exists resp,
    requests_post w (provider_request image k) = Returns resp
    /\ json resp = Returns x.

(** The provider answers with a body that [json()] fails to decode. *)
Definition provider_undecodable (w : World) (image : pyval) (k : str) (e : exn) : Prop :=
  exists resp,
    requests_post w (provider_request image k) = Returns resp
    /\ json resp = Raises e.

(** The exception [v[0]] raises for a non-empty [v] that is no list: a
    [dict] has no key [0], a number or [True] is not subscriptable, and
    the one-character string [v[0]] of a [str] has no [get]. *)
Definition first_of_non_list (v : pyval) : exn :=
  match v with
  | PyStr _ => AttributeError
  | PyDict _ => KeyError
  | _ => TypeError
  end.

(** A world with an API key whose provider cannot be reached. *)
Definition world_offline : World :=
  mkWorld [ (lit "OCR_SPACE_API_KEY", lit "secret") ] (fun _ => Raises RequestException).

(** A world with an API key whose provider answers with a page that is no
    JSON. *)
Definition world_garbled : World :=
  mkWorld [ (lit "OCR_SPACE_API_KEY", lit "secret") ]
          (fun _ => Returns (mkResponse (Raises JSONDecodeError))).

(** [{"ParsedResults": ["text"]}] *)
Definition answer_bare_text : dict :=
  [ (lit "ParsedResults", PyList [ PyStr (lit "text") ]) ].

(** [{"ParsedResults": {"ParsedText": "text"}}] *)
Definition answer_results_object : dict :=
  [ (lit "ParsedResults", PyDict [ (lit "ParsedText", PyStr (lit "text")) ]) ].

(** A decoder that also knows the empty list. *)
Definition sample_loads_list (s : str) : outcome pyval :=
  if str_eqb s (lit "[]") then Returns (PyList []) else sample_loads s.

(** An answer whose one parsed text is a Russian word of six Cyrillic
    letters, given by its code points. *)
Definition answer_cyrillic : dict :=
  [ (lit "ParsedResults",
      PyList [ PyDict [ (lit "ParsedText", PyStr [1055; 1088; 1080; 1074; 1077; 1090]) ] ]) ].

(** * Properties *)

(** ** Strings and values *)

Lemma str_eqb_refl (s : str) : str_eqb s s = true.
Proof.
  induction s as [|c s IH]; simpl; [reflexivity|].
  now rewrite N.eqb_refl, IH.
Qed.

Lemma str_eqb_eq (s t : str) : str_eqb s t = true <-> s = t.
Proof.
  split; [|intros ->; apply str_eqb_refl].
  revert t; induction s as [|c s IH]; intros [|d t]; simpl; try discriminate; auto.
  intros H; apply andb_true_iff in H as [Hc Hs].
  apply N.eqb_eq in Hc; subst d. f_equal; auto.
Qed.

Lemma eq_str_true (v : pyval) (s : str) : eq_str v s = true <-> v = PyStr s.
Proof.
  destruct v; simpl; try (split; [discriminate|intros [=]]).
  rewrite str_eqb_eq; split; [intros ->; reflexivity | intros [=]; assumption].
Qed.

Lemma eq_str_false (v : pyval) (s : str) : eq_str v s = false <-> v <> PyStr s.
Proof.
  rewrite <- eq_str_true. destruct (eq_str v s); split; congruence.
Qed.

Lemma dict_get_present (d : dict) (k : str) (v default : pyval) :
  dict_lookup d k = Some v -> dict_get d k default = v.
Proof. unfold dict_get; now intros ->. Qed.

Lemma dict_get_absent (d : dict) (k : str) (default : pyval) :
  dict_lookup d k = None -> dict_get d k default = default.
Proof. unfold dict_get; now intros ->. Qed.

Lemma has_method_get (event : dict) (m : string) :
  has_method event m ->
  dict_get event (lit "httpMethod") (PyStr (lit "GET")) = PyStr (lit m).
Proof. apply dict_get_present. Qed.

(** ** [str.strip]

    The result is the middle of the string: what is cut on either side is
    whitespace, and what is left neither starts nor ends with whitespace. *)

Lemma lstrip_split (s : str) :
  exists pre, s = pre ++ lstrip s /\ forallb isspace pre = true.
Proof.
  induction s as [|c s (pre & Hs & Hp)]; simpl.
  - exists []; split; reflexivity.
  - destruct (isspace c) eqn:Hc.
    + exists (c :: pre); simpl; rewrite Hc, Hp; split; [f_equal; exact Hs | reflexivity].
    + exists []; split; reflexivity.
Qed.

Lemma lstrip_head (s : str) (c : N) (rest : str) :
  lstrip s = c :: rest -> isspace c = false.
Proof.
  induction s as [|d s IH]; simpl; [discriminate|].
  destruct (isspace d) eqn:Hd; [exact IH|].
  intros [= -> _]; exact Hd.
Qed.

Lemma rstrip_split (s : str) :
  exists post, s = rstrip s ++ post /\ forallb isspace post = true.
Proof.
  destruct (lstrip_split (rev s)) as (pre & Hs & Hp).
  exists (rev pre); split.
  - unfold rstrip. rewrite <- rev_app_distr, <- Hs. symmetry; apply rev_involutive.
  - apply forallb_forall; intros x Hx. apply in_rev in Hx.
    now apply (proj1 (forallb_forall _ _) Hp).
Qed.

Lemma rstrip_last (s : str) (c : N) (rest : str) :
  rstrip s = rest ++ [c] -> isspace c = false.
Proof.
  unfold rstrip; intros H.
  apply (f_equal (@rev N)) in H. rewrite rev_involutive, rev_unit in H.
  exact (lstrip_head _ _ _ H).
Qed.

Lemma strip_split (s : str) :
  exists pre post,
    s = pre ++ strip s ++ post
    /\ forallb isspace pre = true /\ forallb isspace post = true.
Proof.
  destruct (lstrip_split s) as (pre & Hs & Hp).
  destruct (rstrip_split (lstrip s)) as (post & Ht & Hq).
  exists pre, post; repeat split; try assumption.
  unfold strip. now rewrite <- Ht.
Qed.

Lemma strip_head (s : str) (c : N) (rest : str) :
  strip s = c :: rest -> isspace c = false.
Proof.
  unfold strip; intros H.
  destruct (rstrip_split (lstrip s)) as (post & Ht & _).
  rewrite H in Ht. exact (lstrip_head _ _ _ Ht).
Qed.

Lemma strip_last (s : str) (c : N) (rest : str) :
  strip s = rest ++ [c] -> isspace c = false.
Proof. apply rstrip_last. Qed.

(** X15. [strip] cuts whitespace and nothing else: the string is the
    result framed by two runs of whitespace, and the result neither starts
    nor ends with a whitespace character. *)
Theorem strip_frames (s : str) :
  (exists pre post,
      s = pre ++ strip s ++ post
      /\ forallb isspace pre = true /\ forallb isspace post = true)
  /\ (forall c rest, strip s = c :: rest -> isspace c = false)
  /\ (forall c rest, strip s = rest ++ [c] -> isspace c = false).
Proof.
  split; [apply strip_split | split; intros c rest H].
  - exact (strip_head _ _ _ H).
  - exact (strip_last _ _ _ H).
Qed.

Lemma lstrip_blank (s : str) : forallb isspace s = true -> lstrip s = [].
Proof.
  induction s as [|c s IH]; simpl; [reflexivity|].
  intros H; apply andb_true_iff in H as [-> Hs]. now apply IH.
Qed.

(** X16. A string of whitespace only, the empty string included, strips
    to the empty string. *)
Theorem strip_blank (s : str) : forallb isspace s = true -> strip s = [].
Proof.
  intros H. unfold strip. now rewrite (lstrip_blank _ H).
Qed.

(** ** [json.dumps] emits printable ASCII *)

Lemma hex_digit_printable (n : N) : n < 16 -> printable (hex_digit n) = true.
Proof.
  intros H. unfold hex_digit, printable.
  destruct (n <? 10) eqn:E; apply andb_true_iff; split; apply N.leb_le;
    (apply N.ltb_lt in E || apply N.ltb_ge in E); lia.
Qed.

Lemma u_escape_printable (n : N) : forallb printable (u_escape n) = true.
Proof.
  unfold u_escape, backslash. simpl.
  rewrite !hex_digit_printable; [reflexivity | | | | ];
    apply N.mod_upper_bound; discriminate.
Qed.

Lemma escape_char_printable (c : N) : forallb printable (escape_char c) = true.
Proof.
  unfold escape_char.
  repeat match goal with
         | |- context [if ?b then _ else _] => destruct b eqn:?
         end; try reflexivity.
  - simpl. unfold printable.
    match goal with H : (32 <=? c) && (c <=? 126) = true |- _ => now rewrite H end.
  - apply u_escape_printable.
  - rewrite forallb_app, !u_escape_printable. reflexivity.
Qed.

Lemma encode_basestring_ascii_printable (s : str) :
  forallb printable (encode_basestring_ascii s) = true.
Proof.
  unfold encode_basestring_ascii. rewrite !forallb_app.
  replace (forallb printable (flat_map escape_char s)) with true; [reflexivity|].
  induction s as [|c s IH]; simpl; [reflexivity|].
  now rewrite forallb_app, escape_char_printable, <- IH.
Qed.

Lemma string_of_uint_printable (d : Decimal.uint) :
  forallb printable (lit (DecimalString.NilEmpty.string_of_uint d)) = true.
Proof. induction d; simpl; try reflexivity; exact IHd. Qed.

Lemma nilzero_printable (d : Decimal.uint) :
  forallb printable (lit (DecimalString.NilZero.string_of_uint d)) = true.
Proof. destruct d; try reflexivity; apply string_of_uint_printable. Qed.

Lemma int_repr_printable (z : Z) : forallb printable (int_repr z) = true.
Proof.
  unfold int_repr, DecimalString.NilZero.string_of_int.
  destruct (Z.to_int z) as [d|d]; [apply nilzero_printable|].
  change (forallb printable (45 :: lit (DecimalString.NilZero.string_of_uint d)) = true).
  simpl forallb. now rewrite nilzero_printable.
Qed.

Lemma join_printable (sep : str) (parts : list str) :
  forallb printable sep = true ->
  Forall (fun p => forallb printable p = true) parts ->
  forallb printable (join sep parts) = true.
Proof.
  intros Hs H. induction H as [|p rest Hp Hrest IH]; [reflexivity|].
  destruct rest as [|q rest]; [exact Hp|].
  change (join sep (p :: q :: rest)) with (p ++ sep ++ join sep (q :: rest)).
  now rewrite !forallb_app, Hp, Hs, IH.
Qed.

Lemma floatstr_printable (float_repr : float -> str) (f : float) :
  (forall x, forallb printable (float_repr x) = true) ->
  forallb printable (floatstr float_repr f) = true.
Proof.
  intros H. unfold floatstr.
  destruct (PrimFloat.is_nan f); [reflexivity|].
  destruct (PrimFloat.eqb f PrimFloat.infinity); [reflexivity|].
  destruct (PrimFloat.eqb f PrimFloat.neg_infinity); [reflexivity | apply H].
Qed.

(** With [ensure_ascii] on, the text of any value is printable ASCII, as
    long as the text of a float is. *)
Lemma json_dumps_printable (float_repr : float -> str) :
  (forall x, forallb printable (float_repr x) = true) ->
  forall v, forallb printable (json_dumps float_repr v) = true.
Proof.
  intros Hf. fix IH 1. intros v. destruct v as [ |b|z|f|s|l|d].
  - reflexivity.
  - destruct b; reflexivity.
  - apply int_repr_printable.
  - now apply floatstr_printable.
  - apply encode_basestring_ascii_printable.
  - change (forallb printable
              (lit "[" ++ join (lit ", ") (map (json_dumps float_repr) l) ++ lit "]") = true).
    rewrite !forallb_app, join_printable; [reflexivity | reflexivity |].
    induction l as [|x l IHl]; constructor; [apply IH | exact IHl].
  - change (forallb printable
              (lit "{"
               ++ join (lit ", ")
                    (map (fun kv => encode_basestring_ascii (fst kv) ++ lit ": "
                                    ++ json_dumps float_repr (snd kv)) d)
               ++ lit "}") = true).
    rewrite !forallb_app, join_printable; [reflexivity | reflexivity |].
    induction d as [|[k x] d IHd]; constructor; [|exact IHd].
    simpl fst; simpl snd.
    now rewrite !forallb_app, encode_basestring_ascii_printable, IH.
Qed.

(** ** The handler, branch by branch *)

Section Branches.

Variable json_loads_str : str -> outcome pyval.
Variable float_repr : float -> str.

Lemma parsed_body_loads (event : dict) (o : dict) :
  loads_empty_object json_loads_str ->
  parsed_body json_loads_str event o ->
  json_loads json_loads_str (dict_get event (lit "body") (PyStr (lit "{}")))
  = Returns (PyDict o).
Proof.
  intros He [s Hs Hl | Hn ->].
  - rewrite (dict_get_present _ _ _ _ Hs). exact Hl.
  - rewrite (dict_get_absent _ _ _ Hn). exact He.
Qed.

(** Dispatch on the method. *)
Lemma handler_method_options (event : dict) (context : Context) (w : World) (log : list Request) :
  method_of event = PyStr (lit "OPTIONS") ->
  handler json_loads_str float_repr event context w log = (Returns preflight_response, log).
Proof.
  intros H. unfold handler. fold (method_of event). rewrite H. reflexivity.
Qed.

Lemma handler_method_other (event : dict) (context : Context) (w : World) (log : list Request) :
  method_of event <> PyStr (lit "OPTIONS") ->
  method_of event <> PyStr (lit "POST") ->
  handler json_loads_str float_repr event context w log
  = (Returns (json_response 405 (error_body "Method not allowed")), log).
Proof.
  intros H1 H2. unfold handler. fold (method_of event).
  apply eq_str_false in H1, H2. rewrite H1, H2. reflexivity.
Qed.

(** Run the monad's plumbing in the goal, leaving the library calls
    folded. *)
Ltac run :=
  cbv beta iota zeta delta [bind lift ret os_environ_get post attr_get negb].

(** Enter the [POST] branch of the handler in the goal. *)
Ltac enter_post Hm :=
  unfold handler; rewrite (has_method_get _ _ Hm);
  change (eq_str (PyStr (lit "POST")) (lit "OPTIONS")) with false;
  change (eq_str (PyStr (lit "POST")) (lit "POST")) with true;
  run.

Lemma image_given_body (event : dict) (o : dict) (v : pyval) :
  parsed_body json_loads_str event o ->
  image_given o v ->
  json_loads json_loads_str (dict_get event (lit "body") (PyStr (lit "{}")))
  = Returns (PyDict o).
Proof.
  intros [s Hs Hl | Hn ->] [Hv _].
  - rewrite (dict_get_present _ _ _ _ Hs). exact Hl.
  - discriminate Hv.
Qed.

(** A [POST] whose body decodes to an object with no usable image. *)
Lemma handler_no_image (event : dict) (context : Context) (w : World)
      (log : list Request) (o : dict) :
  has_method event "POST" ->
  json_loads json_loads_str (dict_get event (lit "body") (PyStr (lit "{}")))
  = Returns (PyDict o) ->
  truthy (dict_get o (lit "image") (PyStr [])) = false ->
  handler json_loads_str float_repr event context w log
  = (Returns (json_response 400 (error_body "Image is required")), log).
Proof.
  intros Hm Hb Hi. enter_post Hm. rewrite Hb. run.
  change (lit "") with (@nil N). rewrite Hi.
  reflexivity.
Qed.

(** A [POST] with an image: the handler reads the key next. *)
Ltac enter_image Hm Hb Hi :=
  enter_post Hm; rewrite Hb; run;
  rewrite (dict_get_present _ _ _ _ (proj1 Hi)); rewrite (proj2 Hi); run.

Lemma handler_no_key (event : dict) (context : Context) (w : World)
      (log : list Request) (o : dict) (v : pyval) :
  has_method event "POST" ->
  json_loads json_loads_str (dict_get event (lit "body") (PyStr (lit "{}")))
  = Returns (PyDict o) ->
  image_given o v ->
  truthy (env_lookup (environ w) (lit "OCR_SPACE_API_KEY")) = false ->
  handler json_loads_str float_repr event context w log
  = (Returns (json_response 500 (error_body "OCR API key not configured")), log).
Proof.
  intros Hm Hb Hi Hk. enter_image Hm Hb Hi. rewrite Hk. reflexivity.
Qed.

Lemma truthy_nonempty (k : str) : k <> [] -> truthy (PyStr k) = true.
Proof. destruct k; [contradiction | reflexivity]. Qed.

(** A [POST] with an image and a key, answered by the provider with the
    object [r]: the handler sends one request and reads the error flag. *)
Ltac enter_answer Hm Hb Hi Hk Ha :=
  let resp := fresh "resp" in
  let Hp := fresh "Hp" in
  let Hj := fresh "Hj" in
  let Hne := fresh "Hne" in
  destruct Hk as [Hk Hne]; destruct Ha as (resp & Hp & Hj);
  enter_image Hm Hb Hi; rewrite Hk;
  rewrite (truthy_nonempty _ Hne); run;
  unfold provider_request in Hp; rewrite Hp; run; rewrite Hj; run.

(** Every response the handler returns to a method other than [OPTIONS]
    is a JSON envelope. *)
Lemma handler_returns_json (event : dict) (context : Context) (w : World)
      (log log' : list Request) (resp : dict) :
  handler json_loads_str float_repr event context w log = (Returns resp, log') ->
  method_of event <> PyStr (lit "OPTIONS") ->
  exists status body, resp = json_response status body.
Proof.
  unfold handler. fold (method_of event).
  intros H Hn. apply eq_str_false in Hn. rewrite Hn in H.
  cbv beta iota zeta delta [bind lift ret os_environ_get post negb] in H.
  repeat match type of H with
         | (Returns _, _) = (Returns _, _) =>
             injection H as <- <-; do 2 eexists; reflexivity
         | (Raises _, _) = (Returns _, _) => discriminate H
         | context [match ?x with _ => _ end] =>
             destruct x eqn:?; cbv beta iota in H
         end.
Qed.

(** Outside the request and response shapes of the specification the
    handler raises: a body that is no string, a body that decodes to
    something other than an object, and a first parsed result whose text
    is no string. *)

(** X17. A [POST] whose [body] field holds a value that is no string
    ([null], a number, an object) returns no response: [json.loads]
    raises [TypeError], and no outbound request is made. *)
Lemma body_not_str_raises (event : dict) (context : Context) (w : World)
      (log : list Request) (b : pyval) :
  has_method event "POST" ->
  dict_lookup event (lit "body") = Some b ->
  (forall s, b <> PyStr s) ->
  handler json_loads_str float_repr event context w log = (Raises TypeError, log).
Proof.
  intros Hm Hb Hn. enter_post Hm. rewrite (dict_get_present _ _ _ _ Hb).
  destruct b; try reflexivity. now destruct (Hn s).
Qed.

(** X18. A [POST] whose body decodes to a JSON value that is no object (a
    list, a string, a number, [null]) is no response either: reading its
    [image] raises [AttributeError], and no outbound request is made. *)
Lemma body_not_object_raises (event : dict) (context : Context) (w : World)
      (log : list Request) (b : pyval) :
  has_method event "POST" ->
  json_loads json_loads_str (dict_get event (lit "body") (PyStr (lit "{}")))
  = Returns b ->
  (forall o, b <> PyDict o) ->
  handler json_loads_str float_repr event context w log = (Raises AttributeError, log).
Proof.
  intros Hm Hb Hn. enter_post Hm. rewrite Hb.
  destruct b; try reflexivity. now destruct (Hn d).
Qed.

(** X19. When the first parsed result holds a [ParsedText] that is no string
    ([null], a number, a list), stripping it raises [AttributeError]
    after the provider has been called. *)
Lemma text_not_str_raises (event : dict) (context : Context) (w : World)
      (log : list Request) (o r p : dict) (v x : pyval) (k : str) (rest : list pyval) :
  has_method event "POST" ->
  parsed_body json_loads_str event o ->
  image_given o v ->
  key_configured w k ->
  provider_answers w v k r ->
  errored r = false ->
  dict_lookup r (lit "ParsedResults") = Some (PyList (PyDict p :: rest)) ->
  dict_lookup p (lit "ParsedText") = Some x ->
  (forall t, x <> PyStr t) ->
  handler json_loads_str float_repr event context w log
  = (Raises AttributeError, log ++ [provider_request v k]).
Proof.
  intros Hm Hb Hi Hk Ha He Hres Htext Hn.
  pose proof (image_given_body _ _ _ Hb Hi) as Hl.
  enter_answer Hm Hl Hi Hk Ha.
  unfold errored in He. rewrite He.
  rewrite (dict_get_present _ _ _ _ Hres).
  cbv beta iota delta [truthy subscript0].
  rewrite (dict_get_present _ _ _ _ Htext).
  destruct x; try reflexivity. now destruct (Hn s).
Qed.

Lemma env_lookup_cases (env : list (str * str)) (name : str) :
  env_lookup env name = PyNone \/ exists k, env_lookup env name = PyStr k.
Proof.
  induction env as [|[n v] env IH]; simpl; [now left|].
  destruct (str_eqb n name); [right; now exists v | exact IH].
Qed.

Lemma truthy_str_nonempty (k : str) : truthy (PyStr k) = true -> k <> [].
Proof. destruct k; [discriminate | discriminate]. Qed.

(** Every response the handler returns is one of the six it builds, with
    the log that goes with it. *)
Lemma handler_returns_cases (event : dict) (context : Context) (w : World)
      (log log' : list Request) (resp : dict) :
  handler json_loads_str float_repr event context w log = (Returns resp, log') ->
  handler_result float_repr event context w log resp log'.
Proof.
  unfold handler. fold (method_of event).
  destruct (eq_str (method_of event) (lit "OPTIONS")) eqn:Ho.
  { intros [= <- <-]. apply result_preflight. now apply eq_str_true. }
  destruct (eq_str (method_of event) (lit "POST")) eqn:Hp; simpl negb; cbv iota.
  2: { intros [= <- <-]. apply result_method_not_allowed; now apply eq_str_false. }
  apply eq_str_true in Hp. run.
  destruct (json_loads json_loads_str _) as [body_data|e]; [|discriminate].
  destruct body_data as [ | | | | | |o]; try discriminate.
  destruct (truthy (dict_get o (lit "image") (PyStr (lit "")))) eqn:Hi.
  2: { intros [= <- <-]. now apply result_image_required. }
  destruct (truthy (env_lookup (environ w) (lit "OCR_SPACE_API_KEY"))) eqn:Hk.
  2: { intros [= <- <-]. now apply result_key_not_configured. }
  destruct (env_lookup_cases (environ w) (lit "OCR_SPACE_API_KEY")) as [Hn | (k & Hn)];
    rewrite Hn in *; [discriminate Hk|].
  assert (Hkey : key_configured w k)
    by (split; [exact Hn | now apply truthy_str_nonempty]).
  fold (provider_request (dict_get o (lit "image") (PyStr (lit ""))) k).
  destruct (requests_post w _) as [response|e]; [|discriminate].
  destruct (json response) as [result|e]; [|discriminate].
  destruct result as [ | | | | | |r]; try discriminate.
  destruct (truthy (dict_get r (lit "IsErroredOnProcessing") PyNone)).
  { intros [= <- <-]. now apply result_processing_failed. }
  cbv beta iota zeta delta [attr_strip].
  destruct (truthy (dict_get r (lit "ParsedResults") (PyList []))); cbv beta iota.
  - destruct (subscript0 _) as [first|e]; [|discriminate].
    destruct first as [ | | | | | |p]; try discriminate.
    destruct (dict_get p (lit "ParsedText") (PyStr (lit ""))) as [ | | | |t| | ];
      try discriminate.
    intros [= <- <-]. now apply result_text.
  - intros [= <- <-]. now apply (result_text _ _ _ _ _ _ _ (lit "")).
Qed.

(** ** The claims *)

(** C3. A request with method [OPTIONS], whatever else it carries, is
    answered with status 200, an empty body and exactly the four CORS
    headers of the preflight response (allowed origin [*], methods
    [POST, OPTIONS], headers [Content-Type], max age 86400), and no
    outbound request is made. *)
Theorem options_preflight (event : dict) (context : Context) (w : World)
        (log : list Request) :
  has_method event "OPTIONS" ->
  handler json_loads_str float_repr event context w log
  = (Returns preflight_response, log).
Proof.
  intros Hm. apply handler_method_options. now apply has_method_get.
Qed.

(** C4. A request whose method is neither [POST] nor [OPTIONS] is answered
    with status 405 and the JSON body [{"error": "Method not allowed"}],
    and no outbound request is made. *)
Theorem method_not_allowed (event : dict) (context : Context) (w : World)
        (log : list Request) :
  method_of event <> PyStr (lit "POST") ->
  method_of event <> PyStr (lit "OPTIONS") ->
  handler json_loads_str float_repr event context w log
  = (Returns (json_response 405 (error_body "Method not allowed")), log).
Proof.
  intros Hp Ho. unfold handler. fold (method_of event).
  apply eq_str_false in Hp, Ho. rewrite Ho, Hp. reflexivity.
Qed.

(** C10. A request with no [httpMethod] field at all is taken as a [GET]:
    it is answered with status 405 and the JSON body
    [{"error": "Method not allowed"}], whatever its body is and whatever
    [json.loads] would make of it, and no outbound request is made. *)
Theorem absent_method_is_get (event : dict) (context : Context) (w : World)
        (log : list Request) :
  dict_lookup event (lit "httpMethod") = None ->
  handler json_loads_str float_repr event context w log
  = (Returns (json_response 405 (error_body "Method not allowed")), log).
Proof.
  intros Hm.
  apply handler_method_other; unfold method_of;
    rewrite (dict_get_absent _ _ _ Hm); discriminate.
Qed.

(** C9. A [POST] whose body string [json.loads] rejects returns no
    response: the exception raised by the decoder leaves the handler
    uncaught, and no outbound request is made. *)
Theorem malformed_body_propagates (event : dict) (context : Context) (w : World)
        (log : list Request) (s : str) (e : exn) :
  has_method event "POST" ->
  dict_lookup event (lit "body") = Some (PyStr s) ->
  json_loads_str s = Raises e ->
  handler json_loads_str float_repr event context w log = (Raises e, log).
Proof.
  intros Hm Hs He. enter_post Hm.
  rewrite (dict_get_present _ _ _ _ Hs). unfold json_loads. rewrite He.
  reflexivity.
Qed.

(** C5. A [POST] whose parsed JSON body has no [image] key or an empty
    [image] value (a request with no body at all counting as the empty
    object) is answered with status 400 and the JSON body
    [{"error": "Image is required"}], whether or not an API key is
    configured, and no outbound request is made. *)
Theorem image_required (event : dict) (context : Context) (w : World)
        (log : list Request) (o : dict) :
  loads_empty_object json_loads_str ->
  has_method event "POST" ->
  parsed_body json_loads_str event o ->
  image_missing o ->
  handler json_loads_str float_repr event context w log
  = (Returns (json_response 400 (error_body "Image is required")), log).
Proof.
  intros He Hm Hb Hi.
  apply handler_no_image with (o := o); [assumption | now apply parsed_body_loads |].
  destruct Hi as [Hn | (v & Hv & Hf)].
  - now rewrite (dict_get_absent _ _ _ Hn).
  - now rewrite (dict_get_present _ _ _ _ Hv).
Qed.

(** C6. A [POST] with a non-empty image, when the API key is not set or is
    empty, is answered with status 500 and the JSON body
    [{"error": "OCR API key not configured"}], and no outbound request is
    made. *)
Theorem api_key_not_configured (event : dict) (context : Context) (w : World)
        (log : list Request) (o : dict) (v : pyval) :
  has_method event "POST" ->
  parsed_body json_loads_str event o ->
  image_given o v ->
  key_missing w ->
  handler json_loads_str float_repr event context w log
  = (Returns (json_response 500 (error_body "OCR API key not configured")), log).
Proof.
  intros Hm Hb Hi Hk.
  apply handler_no_key with (o := o) (v := v);
    [assumption | now apply image_given_body with (v := v) | assumption |].
  destruct Hk as [-> | ->]; reflexivity.
Qed.

(** C2. A [POST] with a non-empty image and a configured API key, when the
    provider response signals a processing error, is answered with status
    500 and the JSON body
    [{"error": "OCR processing failed", "details": <ErrorMessage>}], where
    the details are the provider's error message list (the empty list when
    the response carries none); the one outbound request is the provider
    call. *)
Theorem ocr_processing_failed (event : dict) (context : Context) (w : World)
        (log : list Request) (o r : dict) (v : pyval) (k : str) :
  has_method event "POST" ->
  parsed_body json_loads_str event o ->
  image_given o v ->
  key_configured w k ->
  provider_answers w v k r ->
  errored r = true ->
  handler json_loads_str float_repr event context w log
  = (Returns
       (json_response 500
          (json_dumps float_repr
             (PyDict [ (lit "error", PyStr (lit "OCR processing failed"));
                       (lit "details", dict_get r (lit "ErrorMessage") (PyList [])) ]))),
     log ++ [provider_request v k]).
Proof.
  intros Hm Hb Hi Hk Ha He.
  pose proof (image_given_body _ _ _ Hb Hi) as Hl.
  enter_answer Hm Hl Hi Hk Ha.
  unfold errored in He. rewrite He. reflexivity.
Qed.

(** C1. A [POST] with a non-empty image and a configured API key, when the
    provider response carries no processing-error flag, is answered with
    status 200 and the JSON body [{"text": <text>, "requestId": <id>}],
    where the text is the first parsed result's [ParsedText] with leading
    and trailing whitespace stripped (the empty string when there are no
    parsed results) and the id is the invocation's request identifier. *)
Theorem ocr_text_returned (event : dict) (context : Context) (w : World)
        (log : list Request) (o r : dict) (v : pyval) (k t : str) :
  has_method event "POST" ->
  parsed_body json_loads_str event o ->
  image_given o v ->
  key_configured w k ->
  provider_answers w v k r ->
  errored r = false ->
  first_parsed_text r t ->
  handler json_loads_str float_repr event context w log
  = (Returns
       (json_response 200
          (json_dumps float_repr
             (PyDict [ (lit "text", PyStr (strip t));
                       (lit "requestId", PyStr (request_id context)) ]))),
     log ++ [provider_request v k]).
Proof.
  intros Hm Hb Hi Hk Ha He Ht.
  pose proof (image_given_body _ _ _ Hb Hi) as Hl.
  enter_answer Hm Hl Hi Hk Ha.
  unfold errored in He. rewrite He.
  destruct Ht as [Hnone | p rest t Hres Htext | p rest Hres Htext].
  - rewrite Hnone. reflexivity.
  - rewrite (dict_get_present _ _ _ _ Hres).
    cbv beta iota delta [truthy subscript0].
    rewrite (dict_get_present _ _ _ _ Htext). reflexivity.
  - rewrite (dict_get_present _ _ _ _ Hres).
    cbv beta iota delta [truthy subscript0].
    rewrite (dict_get_absent _ _ _ Htext). reflexivity.
Qed.

(** C7. Whenever the handler returns a response to a request whose method
    is not [OPTIONS], the headers of the response hold
    [Content-Type: application/json] and [Access-Control-Allow-Origin: *]. *)
Theorem json_headers_present (event : dict) (context : Context) (w : World)
        (log log' : list Request) (resp : dict) :
  handler json_loads_str float_repr event context w log = (Returns resp, log') ->
  method_of event <> PyStr (lit "OPTIONS") ->
  exists h,
    dict_lookup resp (lit "headers") = Some (PyDict h)
    /\ dict_lookup h (lit "Content-Type") = Some (PyStr (lit "application/json"))
    /\ dict_lookup h (lit "Access-Control-Allow-Origin") = Some (PyStr (lit "*")).
Proof.
  intros H Hn.
  destruct (handler_returns_json _ _ _ _ _ _ H Hn) as (status & body & ->).
  eexists. repeat split; reflexivity.
Qed.

(** C8, on the code. The response to an [OPTIONS] request carries no
    [isBase64Encoded] field: its keys are [statusCode], [headers] and
    [body] only, while every other response the handler returns holds
    [isBase64Encoded: False]. *)
Theorem preflight_lacks_isBase64Encoded (event : dict) (context : Context) (w : World)
        (log : list Request) :
  has_method event "OPTIONS" ->
  exists resp,
    handler json_loads_str float_repr event context w log = (Returns resp, log)
    /\ map fst resp = [lit "statusCode"; lit "headers"; lit "body"]
    /\ dict_contains resp (lit "isBase64Encoded") = false.
Proof.
  intros Hm. exists preflight_response. split; [|split; reflexivity].
  apply handler_method_options. now apply has_method_get.
Qed.

(** The sibling paths: every response to another method holds the field. *)
Lemma json_response_isBase64Encoded (event : dict) (context : Context) (w : World)
      (log log' : list Request) (resp : dict) :
  handler json_loads_str float_repr event context w log = (Returns resp, log') ->
  method_of event <> PyStr (lit "OPTIONS") ->
  dict_lookup resp (lit "isBase64Encoded") = Some (PyBool false).
Proof.
  intros H Hn.
  destruct (handler_returns_json _ _ _ _ _ _ H Hn) as (status & body & ->).
  reflexivity.
Qed.

(** ** Failures of the provider call *)

(** X1. When [requests.post] raises, the exception leaves the handler
    uncaught, after the one request to the provider has been made. *)
Theorem provider_unreachable_propagates (event : dict) (context : Context) (w : World)
        (log : list Request) (o : dict) (v : pyval) (k : str) (e : exn) :
  has_method event "POST" ->
  parsed_body json_loads_str event o ->
  image_given o v ->
  key_configured w k ->
  requests_post w (provider_request v k) = Raises e ->
  handler json_loads_str float_repr event context w log
  = (Raises e, log ++ [provider_request v k]).
Proof.
  intros Hm Hb Hi [Hk Hne] Hp.
  pose proof (image_given_body _ _ _ Hb Hi) as Hl.
  enter_image Hm Hl Hi. rewrite Hk, (truthy_nonempty _ Hne). run.
  unfold provider_request in Hp. rewrite Hp. reflexivity.
Qed.

(** X2. When the provider's answer cannot be decoded as JSON, the
    exception of [response.json()] leaves the handler uncaught. *)
Theorem undecodable_answer_propagates (event : dict) (context : Context) (w : World)
        (log : list Request) (o : dict) (v : pyval) (k : str) (e : exn) :
  has_method event "POST" ->
  parsed_body json_loads_str event o ->
  image_given o v ->
  key_configured w k ->
  provider_undecodable w v k e ->
  handler json_loads_str float_repr event context w log
  = (Raises e, log ++ [provider_request v k]).
Proof.
  intros Hm Hb Hi Hk Ha.
  pose proof (image_given_body _ _ _ Hb Hi) as Hl.
  enter_answer Hm Hl Hi Hk Ha. reflexivity.
Qed.

(** X3. When the provider answers with JSON that is no object (a bare
    string, a list, [null]), reading the error flag raises
    [AttributeError]: no response is returned. *)
Theorem answer_not_object_raises (event : dict) (context : Context) (w : World)
        (log : list Request) (o : dict) (v x : pyval) (k : str) :
  has_method event "POST" ->
  parsed_body json_loads_str event o ->
  image_given o v ->
  key_configured w k ->
  provider_answers_value w v k x ->
  (forall r, x <> PyDict r) ->
  handler json_loads_str float_repr event context w log
  = (Raises AttributeError, log ++ [provider_request v k]).
Proof.
  intros Hm Hb Hi Hk Ha Hn.
  pose proof (image_given_body _ _ _ Hb Hi) as Hl.
  enter_answer Hm Hl Hi Hk Ha.
  destruct x; try reflexivity. now destruct (Hn d).
Qed.

(** X4. When the first element of [ParsedResults] is no object, reading
    its [ParsedText] raises [AttributeError]. *)
Theorem first_result_not_object_raises (event : dict) (context : Context) (w : World)
        (log : list Request) (o r : dict) (v x : pyval) (k : str) (rest : list pyval) :
  has_method event "POST" ->
  parsed_body json_loads_str event o ->
  image_given o v ->
  key_configured w k ->
  provider_answers w v k r ->
  errored r = false ->
  dict_lookup r (lit "ParsedResults") = Some (PyList (x :: rest)) ->
  (forall p, x <> PyDict p) ->
  handler json_loads_str float_repr event context w log
  = (Raises AttributeError, log ++ [provider_request v k]).
Proof.
  intros Hm Hb Hi Hk Ha He Hres Hn.
  pose proof (image_given_body _ _ _ Hb Hi) as Hl.
  enter_answer Hm Hl Hi Hk Ha.
  unfold errored in He. rewrite He.
  rewrite (dict_get_present _ _ _ _ Hres).
  cbv beta iota delta [truthy subscript0].
  destruct x; try reflexivity. now destruct (Hn d).
Qed.

(** X5. When [ParsedResults] is a non-empty value that is no list, taking
    its first element fails: [KeyError] for an object, [TypeError] for a
    number or [true], and [AttributeError] for a string, whose first
    character has no [get]. *)
Theorem results_not_list_raises (event : dict) (context : Context) (w : World)
        (log : list Request) (o r : dict) (v x : pyval) (k : str) :
  has_method event "POST" ->
  parsed_body json_loads_str event o ->
  image_given o v ->
  key_configured w k ->
  provider_answers w v k r ->
  errored r = false ->
  dict_lookup r (lit "ParsedResults") = Some x ->
  truthy x = true ->
  (forall l, x <> PyList l) ->
  handler json_loads_str float_repr event context w log
  = (Raises (first_of_non_list x), log ++ [provider_request v k]).
Proof.
  intros Hm Hb Hi Hk Ha He Hres Ht Hn.
  pose proof (image_given_body _ _ _ Hb Hi) as Hl.
  enter_answer Hm Hl Hi Hk Ha.
  unfold errored in He. rewrite He.
  rewrite (dict_get_present _ _ _ _ Hres). rewrite Ht.
  destruct x as [ |b|z|f|t|l|d]; try reflexivity.
  - destruct t; [discriminate Ht | reflexivity].
  - now destruct (Hn l).
Qed.

(** ** What every response has in common *)

Lemma json_response_status (status : Z) (body : str) :
  dict_lookup (json_response status body) (lit "statusCode") = Some (PyInt status).
Proof. reflexivity. Qed.

Lemma image_given_of_truthy (o : dict) :
  truthy (dict_get o (lit "image") (PyStr (lit ""))) = true ->
  image_given o (dict_get o (lit "image") (PyStr (lit ""))).
Proof.
  unfold image_given, dict_get.
  destruct (dict_lookup o (lit "image")); [now split | discriminate].
Qed.

(** The log the handler leaves, whether it returns or raises. *)
Lemma handler_log (event : dict) (context : Context) (w : World) (log : list Request) :
  snd (handler json_loads_str float_repr event context w log) = log
  \/ exists o v k,
       method_of event = PyStr (lit "POST")
       /\ json_loads json_loads_str (dict_get event (lit "body") (PyStr (lit "{}")))
          = Returns (PyDict o)
       /\ image_given o v
       /\ key_configured w k
       /\ snd (handler json_loads_str float_repr event context w log)
          = log ++ [provider_request v k].
Proof.
  unfold handler. fold (method_of event).
  destruct (eq_str (method_of event) (lit "OPTIONS")); [now left|].
  destruct (eq_str (method_of event) (lit "POST")) eqn:Hp; [|now left].
  apply eq_str_true in Hp. simpl negb. run.
  destruct (json_loads json_loads_str _) as [body_data|e] eqn:Hb; [|now left].
  destruct body_data as [ | | | | | |o]; try now left.
  destruct (truthy (dict_get o (lit "image") (PyStr (lit "")))) eqn:Hi; [|now left].
  destruct (truthy (env_lookup (environ w) (lit "OCR_SPACE_API_KEY"))) eqn:Hk; [|now left].
  destruct (env_lookup_cases (environ w) (lit "OCR_SPACE_API_KEY")) as [Hn | (k & Hn)];
    rewrite Hn in *; [discriminate Hk|].
  right. exists o, (dict_get o (lit "image") (PyStr (lit ""))), k.
  repeat split; try assumption; try (now apply image_given_of_truthy);
    try (now apply truthy_str_nonempty).
  fold (provider_request (dict_get o (lit "image") (PyStr (lit ""))) k).
  destruct (requests_post w _) as [response|e]; [|reflexivity].
  destruct (json response) as [result|e]; [|reflexivity].
  destruct result as [ | | | | | |r]; try reflexivity.
  destruct (truthy (dict_get r (lit "IsErroredOnProcessing") PyNone)); [reflexivity|].
  destruct (truthy (dict_get r (lit "ParsedResults") (PyList []))); cbv beta iota.
  - destruct (subscript0 _) as [first|e]; [|reflexivity].
    destruct first as [ | | | | | |p]; try reflexivity.
    destruct (attr_strip _); reflexivity.
  - reflexivity.
Qed.


(** X7. The status code of every response is 200, 400, 405 or 500. *)
Theorem status_code_is_known (event : dict) (context : Context) (w : World)
        (log log' : list Request) (resp : dict) :
  handler json_loads_str float_repr event context w log = (Returns resp, log') ->
  exists c,
    dict_lookup resp (lit "statusCode") = Some (PyInt c)
    /\ In c [200; 400; 405; 500]%Z.
Proof.
  intros H. destruct (handler_returns_cases _ _ _ _ _ _ H);
    eexists; (split; [reflexivity | simpl; tauto]).
Qed.

(** X8. A response with status 400 or 405 means that no request was sent
    to the provider. *)
Theorem client_error_sends_nothing (event : dict) (context : Context) (w : World)
        (log log' : list Request) (resp : dict) (c : Z) :
  handler json_loads_str float_repr event context w log = (Returns resp, log') ->
  dict_lookup resp (lit "statusCode") = Some (PyInt c) ->
  (c = 400 \/ c = 405)%Z ->
  log' = log.
Proof.
  intros H Hs Hc.
  destruct (handler_returns_cases _ _ _ _ _ _ H); try reflexivity;
    rewrite json_response_status in Hs; injection Hs as <-;
    destruct Hc; discriminate.
Qed.

(** X9. A response with status 200 to a request other than [OPTIONS]
    means that exactly one request was sent, to the provider, with a
    truthy image and the configured non-empty key, and that the body
    holds a stripped text and the invocation's request identifier. *)
Theorem success_comes_from_provider (event : dict) (context : Context) (w : World)
        (log log' : list Request) (resp : dict) :
  handler json_loads_str float_repr event context w log = (Returns resp, log') ->
  dict_lookup resp (lit "statusCode") = Some (PyInt 200) ->
  method_of event <> PyStr (lit "OPTIONS") ->
  exists v k t,
    truthy v = true
    /\ key_configured w k
    /\ log' = log ++ [provider_request v k]
    /\ dict_lookup resp (lit "body")
       = Some (PyStr (json_dumps float_repr
                        (PyDict [ (lit "text", PyStr (strip t));
                                  (lit "requestId", PyStr (request_id context)) ]))).
Proof.
  intros H Hs Hn.
  destruct (handler_returns_cases _ _ _ _ _ _ H) as [Ho| | | | |v k t _ Hv Hk];
    try (rewrite json_response_status in Hs; discriminate Hs).
  - contradiction.
  - exists v, k, t. repeat split; try assumption; apply Hk.
Qed.

(** X10. Every response, the preflight one included, holds an integer
    [statusCode], a [headers] mapping with
    [Access-Control-Allow-Origin: *], and a string [body]. *)
Theorem envelope_core (event : dict) (context : Context) (w : World)
        (log log' : list Request) (resp : dict) :
  handler json_loads_str float_repr event context w log = (Returns resp, log') ->
  exists c h b,
    dict_lookup resp (lit "statusCode") = Some (PyInt c)
    /\ dict_lookup resp (lit "headers") = Some (PyDict h)
    /\ dict_lookup h (lit "Access-Control-Allow-Origin") = Some (PyStr (lit "*"))
    /\ dict_lookup resp (lit "body") = Some (PyStr b).
Proof.
  intros H. destruct (handler_returns_cases _ _ _ _ _ _ H);
    do 3 eexists; repeat split; reflexivity.
Qed.

(** X11. The body of every response whose status is not 200 is the JSON
    text of an object whose first key is [error], holding one of the
    four fixed messages. *)
Theorem error_body_has_error_key (event : dict) (context : Context) (w : World)
        (log log' : list Request) (resp : dict) (c : Z) :
  handler json_loads_str float_repr event context w log = (Returns resp, log') ->
  dict_lookup resp (lit "statusCode") = Some (PyInt c) ->
  c <> 200%Z ->
  exists msg rest,
    dict_lookup resp (lit "body")
    = Some (PyStr (json_dumps float_repr
                     (PyDict ((lit "error", PyStr (lit msg)) :: rest))))
    /\ In msg [ "Method not allowed"; "Image is required";
                "OCR API key not configured"; "OCR processing failed" ]%string.
Proof.
  intros H Hs Hc.
  destruct (handler_returns_cases _ _ _ _ _ _ H) as [ | | | |v k details|v k t].
  - exfalso; apply Hc; injection Hs as <-; reflexivity.
  - exists "Method not allowed"%string, []. split; [reflexivity | simpl; tauto].
  - exists "Image is required"%string, []. split; [reflexivity | simpl; tauto].
  - exists "OCR API key not configured"%string, []. split; [reflexivity | simpl; tauto].
  - exists "OCR processing failed"%string, [ (lit "details", details) ].
    split; [reflexivity | simpl; tauto].
  - exfalso; apply Hc; injection Hs as <-; reflexivity.
Qed.

(** X12. Whether the handler returns or raises, it sends at most one
    request, and only a [POST] whose body decodes to an object with a
    truthy image, under a non-empty API key, sends one: the request it
    sends is the provider request for that image and that key. *)
Theorem at_most_one_request (event : dict) (context : Context) (w : World)
        (log log' : list Request) (out : outcome dict) :
  handler json_loads_str float_repr event context w log = (out, log') ->
  log' = log
  \/ exists o v k,
       method_of event = PyStr (lit "POST")
       /\ json_loads json_loads_str (dict_get event (lit "body") (PyStr (lit "{}")))
          = Returns (PyDict o)
       /\ image_given o v
       /\ key_configured w k
       /\ log' = log ++ [provider_request v k].
Proof.
  intros H.
  destruct (handler_log event context w log) as [Hl | (o & v & k & Hm & Hb & Hi & Hk & Hl)];
    rewrite H in Hl; simpl in Hl.
  - now left.
  - right. now exists o, v, k.
Qed.

(** X13. The invocation context has no part in what is sent: the log of
    outbound requests is the same under any two contexts. *)
Theorem requests_ignore_context (event : dict) (c1 c2 : Context) (w : World)
        (log : list Request) :
  snd (handler json_loads_str float_repr event c1 w log)
  = snd (handler json_loads_str float_repr event c2 w log).
Proof.
  unfold handler.
  cbv beta iota zeta delta [bind lift ret os_environ_get post].
  repeat match goal with
         | |- context [match ?x with _ => _ end] => destruct x; cbv beta iota
         end; reflexivity.
Qed.

(** X14. The body of every response is printable ASCII, whatever the
    recognised text and the provider's details hold: [json.dumps] is
    called with its defaults, so every other character is escaped. The
    text the interpreter gives a finite float is taken to be ASCII. *)
Theorem body_is_printable_ascii (event : dict) (context : Context) (w : World)
        (log log' : list Request) (resp : dict) :
  (forall x, forallb printable (float_repr x) = true) ->
  handler json_loads_str float_repr event context w log = (Returns resp, log') ->
  exists b,
    dict_lookup resp (lit "body") = Some (PyStr b)
    /\ forallb printable b = true.
Proof.
  intros Hf H.
  destruct (handler_returns_cases _ _ _ _ _ _ H);
    eexists; (split; [reflexivity|]);
    try reflexivity; now apply json_dumps_printable.
Qed.

(** X20. Only a [POST] can fail: for any other method the handler
    returns a response, whatever the body holds and whatever the world
    is, and leaves the log untouched. *)
Theorem only_post_can_raise (event : dict) (context : Context) (w : World)
        (log : list Request) :
  method_of event <> PyStr (lit "POST") ->
  exists resp,
    handler json_loads_str float_repr event context w log = (Returns resp, log).
Proof.
  intros Hp. unfold handler. fold (method_of event).
  apply eq_str_false in Hp. rewrite Hp.
  destruct (eq_str (method_of event) (lit "OPTIONS")); eexists; reflexivity.
Qed.

End Branches.

(** ** The claims on the sample requests *)

Lemma options_preflight_witness :
  handler sample_loads sample_float_repr options_event sample_context world_no_key []
  = (Returns preflight_response, []).
Proof.
  apply (options_preflight sample_loads sample_float_repr options_event
           sample_context world_no_key []).
  reflexivity.
Defined.

Lemma method_not_allowed_witness :
  handler sample_loads sample_float_repr get_event sample_context world_no_key []
  = (Returns (json_response 405 (error_body "Method not allowed")), []).
Proof.
  apply (method_not_allowed sample_loads sample_float_repr get_event
           sample_context world_no_key []); discriminate.
Defined.

Lemma absent_method_is_get_witness :
  handler sample_loads sample_float_repr [ (lit "body", PyStr (lit "not json")) ]
    sample_context world_no_key []
  = (Returns (json_response 405 (error_body "Method not allowed")), []).
Proof.
  apply (absent_method_is_get sample_loads sample_float_repr
           [ (lit "body", PyStr (lit "not json")) ] sample_context world_no_key []).
  reflexivity.
Defined.

Lemma malformed_body_propagates_witness :
  handler sample_loads sample_float_repr (post_event (lit "not json"))
    sample_context (world_answering (PyDict answer_hello)) []
  = (Raises JSONDecodeError, []).
Proof.
  apply (malformed_body_propagates sample_loads sample_float_repr
           (post_event (lit "not json")) sample_context
           (world_answering (PyDict answer_hello)) [] (lit "not json") JSONDecodeError);
    reflexivity.
Defined.

Lemma image_required_witness :
  handler sample_loads sample_float_repr (post_event (lit "{}"))
    sample_context (world_answering (PyDict answer_hello)) []
  = (Returns (json_response 400 (error_body "Image is required")), []).
Proof.
  apply (image_required sample_loads sample_float_repr (post_event (lit "{}"))
           sample_context (world_answering (PyDict answer_hello)) [] []).
  - reflexivity.
  - reflexivity.
  - apply body_given with (s := lit "{}"); reflexivity.
  - left; reflexivity.
Defined.

Lemma api_key_not_configured_witness :
  handler sample_loads sample_float_repr (post_event (image_body "aGVsbG8="))
    sample_context world_no_key []
  = (Returns (json_response 500 (error_body "OCR API key not configured")), []).
Proof.
  apply (api_key_not_configured sample_loads sample_float_repr
           (post_event (image_body "aGVsbG8=")) sample_context world_no_key []
           [ (lit "image", PyStr (lit "aGVsbG8=")) ] (PyStr (lit "aGVsbG8="))).
  - reflexivity.
  - apply body_given with (s := image_body "aGVsbG8="); reflexivity.
  - split; reflexivity.
  - left; reflexivity.
Defined.

(** The provider reports [bad image]: the body is
    [{"error": "OCR processing failed", "details": ["bad image"]}]. *)
Lemma ocr_processing_failed_witness :
  handler sample_loads sample_float_repr (post_event (image_body "aGVsbG8="))
    sample_context (world_answering (PyDict answer_bad_image)) []
  = (Returns
       (json_response 500
          (lit "{" ++ dquote ++ lit "error" ++ dquote ++ lit ": "
           ++ dquote ++ lit "OCR processing failed" ++ dquote ++ lit ", "
           ++ dquote ++ lit "details" ++ dquote ++ lit ": ["
           ++ dquote ++ lit "bad image" ++ dquote ++ lit "]}")),
     [ provider_request (PyStr (lit "aGVsbG8=")) (lit "secret") ]).
Proof.
  apply (ocr_processing_failed sample_loads sample_float_repr
           (post_event (image_body "aGVsbG8=")) sample_context
           (world_answering (PyDict answer_bad_image)) []
           [ (lit "image", PyStr (lit "aGVsbG8=")) ] answer_bad_image
           (PyStr (lit "aGVsbG8=")) (lit "secret")).
  - reflexivity.
  - apply body_given with (s := image_body "aGVsbG8="); reflexivity.
  - split; reflexivity.
  - split; [reflexivity | discriminate].
  - eexists; split; reflexivity.
  - reflexivity.
Defined.

(** The provider reads [  Hello World  \n]: the body is
    [{"text": "Hello World", "requestId": "req-1"}]. *)
Lemma ocr_text_returned_witness :
  handler sample_loads sample_float_repr (post_event (image_body "aGVsbG8="))
    sample_context (world_answering (PyDict answer_hello)) []
  = (Returns
       (json_response 200
          (lit "{" ++ dquote ++ lit "text" ++ dquote ++ lit ": "
           ++ dquote ++ lit "Hello World" ++ dquote ++ lit ", "
           ++ dquote ++ lit "requestId" ++ dquote ++ lit ": "
           ++ dquote ++ lit "req-1" ++ dquote ++ lit "}")),
     [ provider_request (PyStr (lit "aGVsbG8=")) (lit "secret") ]).
Proof.
  apply (ocr_text_returned sample_loads sample_float_repr
           (post_event (image_body "aGVsbG8=")) sample_context
           (world_answering (PyDict answer_hello)) []
           [ (lit "image", PyStr (lit "aGVsbG8=")) ] answer_hello
           (PyStr (lit "aGVsbG8=")) (lit "secret") (lit "  Hello World  " ++ [10])).
  - reflexivity.
  - apply body_given with (s := image_body "aGVsbG8="); reflexivity.
  - split; reflexivity.
  - split; [reflexivity | discriminate].
  - eexists; split; reflexivity.
  - reflexivity.
  - eapply first_parsed_result; reflexivity.
Defined.

Lemma json_headers_present_witness :
  exists h,
    dict_lookup (json_response 405 (error_body "Method not allowed")) (lit "headers")
    = Some (PyDict h)
    /\ dict_lookup h (lit "Content-Type") = Some (PyStr (lit "application/json"))
    /\ dict_lookup h (lit "Access-Control-Allow-Origin") = Some (PyStr (lit "*")).
Proof.
  apply (json_headers_present sample_loads sample_float_repr get_event
           sample_context world_no_key [] []
           (json_response 405 (error_body "Method not allowed"))).
  - reflexivity.
  - discriminate.
Defined.

Lemma preflight_lacks_isBase64Encoded_witness :
  exists resp,
    handler sample_loads sample_float_repr options_event sample_context world_no_key []
    = (Returns resp, [])
    /\ map fst resp = [lit "statusCode"; lit "headers"; lit "body"]
    /\ dict_contains resp (lit "isBase64Encoded") = false.
Proof.
  apply (preflight_lacks_isBase64Encoded sample_loads sample_float_repr
           options_event sample_context world_no_key []).
  reflexivity.
Defined.

(** With no parsed results the text is empty: the body is
    [{"text": "", "requestId": "req-1"}]. *)
Example empty_results_text :
  handler sample_loads sample_float_repr (post_event (image_body "aGVsbG8="))
    sample_context (world_answering (PyDict answer_empty)) []
  = (Returns
       (json_response 200
          (lit "{" ++ dquote ++ lit "text" ++ dquote ++ lit ": "
           ++ dquote ++ dquote ++ lit ", "
           ++ dquote ++ lit "requestId" ++ dquote ++ lit ": "
           ++ dquote ++ lit "req-1" ++ dquote ++ lit "}")),
     [ provider_request (PyStr (lit "aGVsbG8=")) (lit "secret") ]).
Proof. vm_compute. reflexivity. Qed.

(** A request with no body at all is read as the empty object. *)
Example no_body_image_required :
  handler sample_loads sample_float_repr [ (lit "httpMethod", PyStr (lit "POST")) ]
    sample_context world_no_key []
  = (Returns (json_response 400 (error_body "Image is required")), []).
Proof. vm_compute. reflexivity. Qed.

(** A first parsed result whose text is [null] makes [strip] fail. *)
Example null_text_raises :
  handler sample_loads sample_float_repr (post_event (image_body "aGVsbG8="))
    sample_context (world_answering (PyDict answer_null_text)) []
  = (Raises AttributeError,
     [ provider_request (PyStr (lit "aGVsbG8=")) (lit "secret") ]).
Proof. vm_compute. reflexivity. Qed.

(** ** The further properties on the sample requests *)

Lemma provider_unreachable_propagates_witness :
  handler sample_loads sample_float_repr (post_event (image_body "aGVsbG8="))
    sample_context world_offline []
  = (Raises RequestException, [ provider_request (PyStr (lit "aGVsbG8=")) (lit "secret") ]).
Proof.
  apply (provider_unreachable_propagates sample_loads sample_float_repr
           (post_event (image_body "aGVsbG8=")) sample_context world_offline []
           [ (lit "image", PyStr (lit "aGVsbG8=")) ] (PyStr (lit "aGVsbG8="))
           (lit "secret") RequestException).
  - reflexivity.
  - apply body_given with (s := image_body "aGVsbG8="); reflexivity.
  - split; reflexivity.
  - split; [reflexivity | discriminate].
  - reflexivity.
Defined.

Lemma undecodable_answer_propagates_witness :
  handler sample_loads sample_float_repr (post_event (image_body "aGVsbG8="))
    sample_context world_garbled []
  = (Raises JSONDecodeError, [ provider_request (PyStr (lit "aGVsbG8=")) (lit "secret") ]).
Proof.
  apply (undecodable_answer_propagates sample_loads sample_float_repr
           (post_event (image_body "aGVsbG8=")) sample_context world_garbled []
           [ (lit "image", PyStr (lit "aGVsbG8=")) ] (PyStr (lit "aGVsbG8="))
           (lit "secret") JSONDecodeError).
  - reflexivity.
  - apply body_given with (s := image_body "aGVsbG8="); reflexivity.
  - split; reflexivity.
  - split; [reflexivity | discriminate].
  - eexists; split; reflexivity.
Defined.

(** The provider answers with a bare JSON string. *)
Lemma answer_not_object_raises_witness :
  handler sample_loads sample_float_repr (post_event (image_body "aGVsbG8="))
    sample_context (world_answering (PyStr (lit "The API key is invalid"))) []
  = (Raises AttributeError, [ provider_request (PyStr (lit "aGVsbG8=")) (lit "secret") ]).
Proof.
  apply (answer_not_object_raises sample_loads sample_float_repr
           (post_event (image_body "aGVsbG8=")) sample_context
           (world_answering (PyStr (lit "The API key is invalid"))) []
           [ (lit "image", PyStr (lit "aGVsbG8=")) ] (PyStr (lit "aGVsbG8="))
           (PyStr (lit "The API key is invalid")) (lit "secret")).
  - reflexivity.
  - apply body_given with (s := image_body "aGVsbG8="); reflexivity.
  - split; reflexivity.
  - split; [reflexivity | discriminate].
  - eexists; split; reflexivity.
  - discriminate.
Defined.

Lemma first_result_not_object_raises_witness :
  handler sample_loads sample_float_repr (post_event (image_body "aGVsbG8="))
    sample_context (world_answering (PyDict answer_bare_text)) []
  = (Raises AttributeError, [ provider_request (PyStr (lit "aGVsbG8=")) (lit "secret") ]).
Proof.
  apply (first_result_not_object_raises sample_loads sample_float_repr
           (post_event (image_body "aGVsbG8=")) sample_context
           (world_answering (PyDict answer_bare_text)) []
           [ (lit "image", PyStr (lit "aGVsbG8=")) ] answer_bare_text
           (PyStr (lit "aGVsbG8=")) (PyStr (lit "text")) (lit "secret") []).
  - reflexivity.
  - apply body_given with (s := image_body "aGVsbG8="); reflexivity.
  - split; reflexivity.
  - split; [reflexivity | discriminate].
  - eexists; split; reflexivity.
  - reflexivity.
  - reflexivity.
  - discriminate.
Defined.

Lemma results_not_list_raises_witness :
  handler sample_loads sample_float_repr (post_event (image_body "aGVsbG8="))
    sample_context (world_answering (PyDict answer_results_object)) []
  = (Raises KeyError, [ provider_request (PyStr (lit "aGVsbG8=")) (lit "secret") ]).
Proof.
  apply (results_not_list_raises sample_loads sample_float_repr
           (post_event (image_body "aGVsbG8=")) sample_context
           (world_answering (PyDict answer_results_object)) []
           [ (lit "image", PyStr (lit "aGVsbG8=")) ] answer_results_object
           (PyStr (lit "aGVsbG8="))
           (PyDict [ (lit "ParsedText", PyStr (lit "text")) ]) (lit "secret")).
  - reflexivity.
  - apply body_given with (s := image_body "aGVsbG8="); reflexivity.
  - split; reflexivity.
  - split; [reflexivity | discriminate].
  - eexists; split; reflexivity.
  - reflexivity.
  - reflexivity.
  - reflexivity.
  - discriminate.
Defined.

Lemma body_not_str_raises_witness :
  handler sample_loads sample_float_repr
    [ (lit "httpMethod", PyStr (lit "POST")); (lit "body", PyNone) ]
    sample_context (world_answering (PyDict answer_hello)) []
  = (Raises TypeError, []).
Proof.
  apply (body_not_str_raises sample_loads sample_float_repr
           [ (lit "httpMethod", PyStr (lit "POST")); (lit "body", PyNone) ]
           sample_context (world_answering (PyDict answer_hello)) [] PyNone).
  - reflexivity.
  - reflexivity.
  - discriminate.
Defined.

Lemma body_not_object_raises_witness :
  handler sample_loads_list sample_float_repr (post_event (lit "[]"))
    sample_context (world_answering (PyDict answer_hello)) []
  = (Raises AttributeError, []).
Proof.
  apply (body_not_object_raises sample_loads_list sample_float_repr
           (post_event (lit "[]")) sample_context
           (world_answering (PyDict answer_hello)) [] (PyList [])).
  - reflexivity.
  - reflexivity.
  - discriminate.
Defined.

Lemma text_not_str_raises_witness :
  handler sample_loads sample_float_repr (post_event (image_body "aGVsbG8="))
    sample_context (world_answering (PyDict answer_null_text)) []
  = (Raises AttributeError, [ provider_request (PyStr (lit "aGVsbG8=")) (lit "secret") ]).
Proof.
  apply (text_not_str_raises sample_loads sample_float_repr
           (post_event (image_body "aGVsbG8=")) sample_context
           (world_answering (PyDict answer_null_text)) []
           [ (lit "image", PyStr (lit "aGVsbG8=")) ] answer_null_text
           [ (lit "ParsedText", PyNone) ]
           (PyStr (lit "aGVsbG8=")) PyNone (lit "secret") []).
  - reflexivity.
  - apply body_given with (s := image_body "aGVsbG8="); reflexivity.
  - split; reflexivity.
  - split; [reflexivity | discriminate].
  - eexists; split; reflexivity.
  - reflexivity.
  - reflexivity.
  - reflexivity.
  - discriminate.
Defined.


Lemma status_code_is_known_witness :
  exists c,
    dict_lookup (json_response 400 (error_body "Image is required")) (lit "statusCode")
    = Some (PyInt c)
    /\ In c [200; 400; 405; 500]%Z.
Proof.
  apply (status_code_is_known sample_loads sample_float_repr (post_event (lit "{}"))
           sample_context world_no_key [] []
           (json_response 400 (error_body "Image is required"))).
  reflexivity.
Defined.

Lemma client_error_sends_nothing_witness : @nil Request = [].
Proof.
  apply (client_error_sends_nothing sample_loads sample_float_repr
           (post_event (lit "{}")) sample_context
           (world_answering (PyDict answer_hello)) [] []
           (json_response 400 (error_body "Image is required")) 400%Z).
  - reflexivity.
  - reflexivity.
  - left; reflexivity.
Defined.

Lemma success_comes_from_provider_witness :
  exists v k t,
    truthy v = true
    /\ key_configured (world_answering (PyDict answer_hello)) k
    /\ [ provider_request (PyStr (lit "aGVsbG8=")) (lit "secret") ]
       = [] ++ [provider_request v k]
    /\ dict_lookup
         (json_response 200
            (json_dumps sample_float_repr
               (PyDict [ (lit "text", PyStr (lit "Hello World"));
                         (lit "requestId", PyStr (lit "req-1")) ])))
         (lit "body")
       = Some (PyStr (json_dumps sample_float_repr
                        (PyDict [ (lit "text", PyStr (strip t));
                                  (lit "requestId", PyStr (request_id sample_context)) ]))).
Proof.
  apply (success_comes_from_provider sample_loads sample_float_repr
           (post_event (image_body "aGVsbG8=")) sample_context
           (world_answering (PyDict answer_hello)) []
           [ provider_request (PyStr (lit "aGVsbG8=")) (lit "secret") ]
           (json_response 200
              (json_dumps sample_float_repr
                 (PyDict [ (lit "text", PyStr (lit "Hello World"));
                           (lit "requestId", PyStr (lit "req-1")) ])))).
  - reflexivity.
  - reflexivity.
  - discriminate.
Defined.

Lemma envelope_core_witness :
  exists c h b,
    dict_lookup preflight_response (lit "statusCode") = Some (PyInt c)
    /\ dict_lookup preflight_response (lit "headers") = Some (PyDict h)
    /\ dict_lookup h (lit "Access-Control-Allow-Origin") = Some (PyStr (lit "*"))
    /\ dict_lookup preflight_response (lit "body") = Some (PyStr b).
Proof.
  apply (envelope_core sample_loads sample_float_repr options_event sample_context
           world_no_key [] [] preflight_response).
  reflexivity.
Defined.

Lemma error_body_has_error_key_witness :
  exists msg rest,
    dict_lookup
      (json_response 500
         (json_dumps sample_float_repr
            (PyDict [ (lit "error", PyStr (lit "OCR processing failed"));
                      (lit "details", PyList [ PyStr (lit "bad image") ]) ])))
      (lit "body")
    = Some (PyStr (json_dumps sample_float_repr
                     (PyDict ((lit "error", PyStr (lit msg)) :: rest))))
    /\ In msg [ "Method not allowed"; "Image is required";
                "OCR API key not configured"; "OCR processing failed" ]%string.
Proof.
  apply (error_body_has_error_key sample_loads sample_float_repr
           (post_event (image_body "aGVsbG8=")) sample_context
           (world_answering (PyDict answer_bad_image)) []
           [ provider_request (PyStr (lit "aGVsbG8=")) (lit "secret") ]
           (json_response 500
              (json_dumps sample_float_repr
                 (PyDict [ (lit "error", PyStr (lit "OCR processing failed"));
                           (lit "details", PyList [ PyStr (lit "bad image") ]) ])))
           500%Z).
  - reflexivity.
  - reflexivity.
  - discriminate.
Defined.

Lemma at_most_one_request_witness :
  [ provider_request (PyStr (lit "aGVsbG8=")) (lit "secret") ] = []
  \/ exists o v k,
       method_of (post_event (image_body "aGVsbG8=")) = PyStr (lit "POST")
       /\ json_loads sample_loads
            (dict_get (post_event (image_body "aGVsbG8=")) (lit "body") (PyStr (lit "{}")))
          = Returns (PyDict o)
       /\ image_given o v
       /\ key_configured world_offline k
       /\ [ provider_request (PyStr (lit "aGVsbG8=")) (lit "secret") ]
          = [] ++ [provider_request v k].
Proof.
  apply (at_most_one_request sample_loads sample_float_repr
           (post_event (image_body "aGVsbG8=")) sample_context world_offline []
           [ provider_request (PyStr (lit "aGVsbG8=")) (lit "secret") ]
           (Raises RequestException)).
  reflexivity.
Defined.

(** A Cyrillic text leaves the handler as six [\uXXXX] escapes. *)
Lemma body_is_printable_ascii_witness :
  exists b,
    dict_lookup
      (json_response 200
         (lit "{" ++ dquote ++ lit "text" ++ dquote ++ lit ": " ++ dquote
          ++ backslash ++ lit "u041f" ++ backslash ++ lit "u0440"
          ++ backslash ++ lit "u0438" ++ backslash ++ lit "u0432"
          ++ backslash ++ lit "u0435" ++ backslash ++ lit "u0442"
          ++ dquote ++ lit ", " ++ dquote ++ lit "requestId" ++ dquote ++ lit ": "
          ++ dquote ++ lit "req-1" ++ dquote ++ lit "}"))
      (lit "body")
    = Some (PyStr b)
    /\ forallb printable b = true.
Proof.
  apply (body_is_printable_ascii sample_loads sample_float_repr
           (post_event (image_body "aGVsbG8=")) sample_context
           (world_answering (PyDict answer_cyrillic)) []
           [ provider_request (PyStr (lit "aGVsbG8=")) (lit "secret") ]).
  - intros x; reflexivity.
  - reflexivity.
Defined.

Lemma strip_blank_witness : strip (lit "  " ++ [9; 10; 160]) = [].
Proof.
  apply (strip_blank (lit "  " ++ [9; 10; 160])). reflexivity.
Defined.

Lemma only_post_can_raise_witness :
  exists resp,
    handler sample_loads sample_float_repr
      [ (lit "httpMethod", PyStr (lit "DELETE")); (lit "body", PyNone) ]
      sample_context world_offline []
    = (Returns resp, []).
Proof.
  apply (only_post_can_raise sample_loads sample_float_repr
           [ (lit "httpMethod", PyStr (lit "DELETE")); (lit "body", PyNone) ]
           sample_context world_offline []).
  discriminate.
Defined.
